(** * Account deletion over a hosted row store: the users router

    A shallow embedding of the Express router for user accounts
    (the two [DELETE] routes, the [authenticateToken] middleware) and
    of the shared Supabase client module, with the properties of the
    cascading account-deletion workflow proved about it.

    The row store (Supabase / PostgREST) and the token library
    (jsonwebtoken) are collaborators outside the repository.  They are
    modelled by their contract:
    - a table is a list of rows, a row a JSON object with text values;
    - [from(t).delete().<filter>] removes the rows of [t] that match
      the filter and answers [{ error: null }], or the store reports an
      error and removes nothing.  Which calls the store fails is an
      input of a run ([faults]), so every theorem quantified over
      [faults] covers every way the store may fail;
    - [jwt.verify] is a parameter of the middleware. *)

From Stdlib Require Import Ascii.
From stdpp Require Import base strings list gmap.

(** ** JavaScript values used by the router *)

(** An identifier read from the verified token is a string or is
    [undefined] ([None]). *)
Definition js_string := option string.

(** Truthiness of a string-or-undefined value: [undefined] and the empty
    string are falsy. *)
Definition truthy (v : js_string) : bool :=
  match v with
  | Some s => negb (String.eqb s "")
  | None => false
  end.

(** [a || b] *)
Definition js_or (a b : js_string) : js_string :=
  if truthy a then a else b.

(** Text of a value inside a template literal or a PostgREST filter:
    [`${undefined}`] is ["undefined"]. *)
Definition js_text (v : js_string) : string :=
  match v with
  | Some s => s
  | None => "undefined"
  end.

(** [a !== b] for a string [a] and a string-or-undefined [b]. *)
Definition strict_neq (a : string) (b : js_string) : bool :=
  match b with
  | Some s => negb (String.eqb a s)
  | None => true
  end.

(** The payload of a verified token, [req.user]. *)
Record jwt_payload := mkPayload {
  payload_userId : js_string;
  payload_id : js_string
}.

(** An error object; the router only reads [error.message]. *)
Record error := mkError { message : string }.

(** ** The row store *)

Abbreviation row := (gmap string string).

Inductive table := posts | likes | comments | bookmarks | subscribers | users.

Record Store := mkStore {
  posts_rows : list row;
  likes_rows : list row;
  comments_rows : list row;
  bookmarks_rows : list row;
  subscribers_rows : list row;
  users_rows : list row
}.

Definition rows_of (t : table) (s : Store) : list row :=
  match t with
  | posts => posts_rows s
  | likes => likes_rows s
  | comments => comments_rows s
  | bookmarks => bookmarks_rows s
  | subscribers => subscribers_rows s
  | users => users_rows s
  end.

Definition with_rows (t : table) (rs : list row) (s : Store) : Store :=
  match t with
  | posts => mkStore rs (likes_rows s) (comments_rows s) (bookmarks_rows s) (subscribers_rows s) (users_rows s)
  | likes => mkStore (posts_rows s) rs (comments_rows s) (bookmarks_rows s) (subscribers_rows s) (users_rows s)
  | comments => mkStore (posts_rows s) (likes_rows s) rs (bookmarks_rows s) (subscribers_rows s) (users_rows s)
  | bookmarks => mkStore (posts_rows s) (likes_rows s) (comments_rows s) rs (subscribers_rows s) (users_rows s)
  | subscribers => mkStore (posts_rows s) (likes_rows s) (comments_rows s) (bookmarks_rows s) rs (users_rows s)
  | users => mkStore (posts_rows s) (likes_rows s) (comments_rows s) (bookmarks_rows s) (subscribers_rows s) rs
  end.

(** The filters the deletion routes build: [.eq(column, value)] and
    [.or(`c1.eq.${v},c2.eq.${v}`)].  The [.or] argument is PostgREST's
    textual syntax for a disjunction of conditions; the model keeps the
    disjunction it denotes for an identifier free of that syntax's
    reserved characters. *)
Inductive filter :=
  | eq_ (column value : string)
  | or_ (conditions : list (string * string)).

Definition column_is (r : row) (column value : string) : bool :=
  bool_decide (r !! column = Some value).

Definition row_matches (f : filter) (r : row) : bool :=
  match f with
  | eq_ c v => column_is r c v
  | or_ cs => existsb (fun cv => column_is r cv.1 cv.2) cs
  end.

(** Rows left in a table by a delete under filter [f]. *)
Definition delete_where (f : filter) (rs : list row) : list row :=
  List.filter (fun r => negb (row_matches f r)) rs.

(** ** Effects: the world a handler runs in *)

Inductive event :=
  | Console_log (text : string)
  | Console_error (label : string) (e : error)
  | Db_delete (t : table) (f : filter)
  | Auth_admin_deleteUser (id : string).

(** The primary store, the identity credentials kept by the auth service
    (a list of ids), and the effects issued so far, oldest first. *)
Record World := mkWorld {
  db : Store;
  auth_users : list string;
  trace : list event
}.

Definition emit (ev : event) (w : World) : World :=
  mkWorld (db w) (auth_users w) (trace w ++ [ev]).

(** What the identity service does with [auth.admin.deleteUser]. *)
Inductive auth_outcome :=
  | Auth_ok
  | Auth_error_result (e : error)
  | Auth_throws (e : error).

(** The failures of one run: the error, if any, the store reports for the
    delete issued on each table, and the outcome of the credential
    removal. *)
Record faults := mkFaults {
  delete_error : table -> option error;
  auth_delete : auth_outcome
}.

Definition no_faults : faults := mkFaults (fun _ => None) Auth_ok.

(** A computation returns or throws, and changes the world. *)
Inductive result (A : Type) :=
  | Ok (a : A)
  | Throw (e : error).
Arguments Ok {A} a.
Arguments Throw {A} e.

Definition M (A : Type) : Type := World -> result A * World.

#[export] Instance M_ret : MRet M := fun A a w => (Ok a, w).
#[export] Instance M_bind : MBind M := fun A B k m w =>
  match m w with
  | (Ok a, w1) => k a w1
  | (Throw e, w1) => (Throw e, w1)
  end.
#[export] Instance M_throw : MThrow error M := fun A e w => (Throw e, w).

(** [try { body } catch (e) { handler e }] *)
Definition try_catch {A} (body : M A) (handler : error -> M A) : M A :=
  fun w =>
    match body w with
    | (Ok a, w1) => (Ok a, w1)
    | (Throw e, w1) => handler e w1
    end.

Definition console_log (text : string) : M unit :=
  fun w => (Ok tt, emit (Console_log text) w).

Definition console_error (label : string) (e : error) : M unit :=
  fun w => (Ok tt, emit (Console_error label e) w).

(** [await supabase.from(t).delete().<f>], answering [{ error }]. *)
Definition db_delete (fl : faults) (t : table) (f : filter) : M (option error) :=
  fun w =>
    let w1 := emit (Db_delete t f) w in
    match delete_error fl t with
    | Some e => (Ok (Some e), w1)
    | None =>
        (Ok None,
         mkWorld (with_rows t (delete_where f (rows_of t (db w1))) (db w1))
                 (auth_users w1) (trace w1))
    end.

(** [await supabase.auth.admin.deleteUser(id)]; the routes drop its value. *)
Definition auth_admin_deleteUser (fl : faults) (id : string) : M unit :=
  fun w =>
    let w1 := emit (Auth_admin_deleteUser id) w in
    match auth_delete fl with
    | Auth_ok =>
        (Ok tt,
         mkWorld (db w1) (List.filter (fun u => negb (String.eqb u id)) (auth_users w1))
                 (trace w1))
    | Auth_error_result _ => (Ok tt, w1)
    | Auth_throws e => (Throw e, w1)
    end.

(** [if (err) { console.error(label, err); throw err; }] *)
Definition throw_if (label : string) (err : option error) : M unit :=
  match err with
  | Some e => console_error label e ;; mthrow e
  | None => mret tt
  end.

(** ** Responses *)

Record response := mkResponse {
  status : nat;
  body : list (string * string)
}.

(** [res.json(obj)]: status 200 unless set. *)
Definition res_json (obj : list (string * string)) : response := mkResponse 200 obj.

(** [res.status(code).json(obj)] *)
Definition res_status_json (code : nat) (obj : list (string * string)) : response :=
  mkResponse code obj.

(** The outer [try { ... } catch (error) { ... }] of a route: the body
    computes the response unless it throws, and then the catch clause
    does. *)
Definition try_route (body : M response)
  (catch : error -> World -> response * World) (w : World) : response * World :=
  match body w with
  | (Ok r, w1) => (r, w1)
  | (Throw e, w1) => catch e w1
  end.

(** ** The deletion routes *)

(** [router.delete('/profile', authenticateToken, ...)] *)
Definition delete_profile (fl : faults) (user : jwt_payload) : World -> response * World :=
  try_route
    (let userId := js_or (payload_userId user) (payload_id user) in
     console_log ("Deleting user account: " +:+ js_text userId) ;;
     (* 1. Delete user's posts *)
     postsError ← db_delete fl posts (eq_ "user_id" (js_text userId)) ;
     throw_if "Error deleting posts:" postsError ;;
     (* 2. Delete user's likes *)
     likesError ← db_delete fl likes (eq_ "user_id" (js_text userId)) ;
     throw_if "Error deleting likes:" likesError ;;
     (* 3. Delete user's comments *)
     commentsError ← db_delete fl comments (eq_ "user_id" (js_text userId)) ;
     throw_if "Error deleting comments:" commentsError ;;
     (* 4. Delete user's bookmarks *)
     bookmarksError ← db_delete fl bookmarks (eq_ "user_id" (js_text userId)) ;
     throw_if "Error deleting bookmarks:" bookmarksError ;;
     (* 5. Delete user's subscriptions and subscribers *)
     subscribersError ← db_delete fl subscribers
       (or_ [("subscriber_id", js_text userId); ("creator_id", js_text userId)]) ;
     throw_if "Error deleting subscribers:" subscribersError ;;
     (* 6. Delete the user from the users table *)
     userError ← db_delete fl users (eq_ "id" (js_text userId)) ;
     throw_if "Error deleting user:" userError ;;
     (* 7. Delete the user from auth.users *)
     try_catch (auth_admin_deleteUser fl (js_text userId))
       (fun authError => console_error "Error deleting auth user:" authError) ;;
     mret (res_json [("message", "Account successfully deleted")]))
    (fun error w =>
       (res_status_json 500
          [("message", "Error deleting account"); ("error", message error)],
        emit (Console_error "Delete account error:" error) w)).

(** [router.delete('/:userId', authenticateToken, ...)]; [userId] is
    [req.params.userId]. *)
Definition delete_by_userId (fl : faults) (userId : string) (user : jwt_payload)
  : World -> response * World :=
  try_route
    (let loggedInUserId := js_or (payload_userId user) (payload_id user) in
     (* Verify user is deleting their own account *)
     if strict_neq userId loggedInUserId then
       mret (res_status_json 403 [("message", "You can only delete your own account")])
     else
     console_log ("Deleting user account: " +:+ userId) ;;
     (* 1. Delete user's posts *)
     postsError ← db_delete fl posts (eq_ "user_id" userId) ;
     throw_if "Error deleting posts:" postsError ;;
     (* 2. Delete user's likes *)
     likesError ← db_delete fl likes (eq_ "user_id" userId) ;
     throw_if "Error deleting likes:" likesError ;;
     (* 3. Delete user's comments *)
     commentsError ← db_delete fl comments (eq_ "user_id" userId) ;
     throw_if "Error deleting comments:" commentsError ;;
     (* 4. Delete user's bookmarks *)
     bookmarksError ← db_delete fl bookmarks (eq_ "user_id" userId) ;
     throw_if "Error deleting bookmarks:" bookmarksError ;;
     (* 5. Delete user's subscriptions and subscribers *)
     subscribersError ← db_delete fl subscribers
       (or_ [("subscriber_id", userId); ("creator_id", userId)]) ;
     throw_if "Error deleting subscribers:" subscribersError ;;
     (* 6. Delete the user from the users table *)
     userError ← db_delete fl users (eq_ "id" userId) ;
     throw_if "Error deleting user:" userError ;;
     (* 7. Delete the user from auth.users *)
     try_catch (auth_admin_deleteUser fl userId)
       (fun authError => console_error "Error deleting auth user:" authError) ;;
     mret (res_json [("message", "Account successfully deleted")]))
    (fun error w =>
       (res_status_json 500
          [("message", "Error deleting account"); ("error", message error)],
        emit (Console_error "Delete account error:" error) w)).

(** The two addresses of the deletion operation. *)
Inductive delete_route :=
  | Route_profile
  | Route_userId (userId : string).

Definition handle_delete (fl : faults) (route : delete_route) (user : jwt_payload)
  : World -> response * World :=
  match route with
  | Route_profile => delete_profile fl user
  | Route_userId userId => delete_by_userId fl userId user
  end.

(** ** The [authenticateToken] middleware *)

Record request := mkRequest { headers : gmap string string }.

(** [s.split(sep)] for a one-character separator. *)
Fixpoint split_on (sep : ascii) (s : string) : list string :=
  match s with
  | EmptyString => [EmptyString]
  | String c s' =>
      if Ascii.eqb c sep then EmptyString :: split_on sep s'
      else match split_on sep s' with
           | piece :: pieces => String c piece :: pieces
           | [] => [String c EmptyString]
           end
  end.

(** [a && b], with [b] evaluated only when [a] is truthy. *)
Definition js_and (a : js_string) (b : string -> js_string) : js_string :=
  match a with
  | Some s => if truthy a then b s else a
  | None => None
  end.

(** [a || 'literal'] *)
Definition js_or_default (a : js_string) (literal : string) : string :=
  if truthy a then js_text a else literal.

(** [authHeader && authHeader.split(' ')[1]] *)
Definition bearer_token (req : request) : js_string :=
  let authHeader := headers req !! "authorization" in
  js_and authHeader (fun h => split_on " "%char h !! 1).

Inductive middleware_result :=
  | Responded (r : response)
  | Next (user : jwt_payload).

Section Middleware.
(** [jwt.verify(token, secret, callback)]: the callback receives an error
    or the decoded payload. *)
Variable jwt_verify : string -> string -> error + jwt_payload.
(** [process.env] *)
Variable env : gmap string string.

Definition authenticateToken (req : request) : middleware_result :=
  let token := bearer_token req in
  if negb (truthy token) then
    Responded (res_status_json 401 [("message", "Access denied")])
  else
    match jwt_verify (js_text token)
            (js_or_default (env !! "JWT_SECRET") "your-secret-key") with
    | inl err => Responded (res_status_json 403 [("message", "Invalid token")])
    | inr user => Next user
    end.

(** A [DELETE] request through the middleware and then the route. *)
Definition serve_delete (fl : faults) (route : delete_route) (req : request)
  (w : World) : response * World :=
  match authenticateToken req with
  | Responded r => (r, w)
  | Next user => handle_delete fl route user w
  end.
End Middleware.

(** ** The shared Supabase client module, [utils/supabaseClient.js] *)

(** What [createClient(url, key)] was given. *)
Record client := createClient {
  client_url : js_string;
  client_key : js_string
}.

Definition missing_credentials : error :=
  mkError "Missing Supabase credentials. Please check your environment variables.".

(** Loading the module: it throws or exports [{ supabase }]. *)
Definition supabaseClient (env : gmap string string) : result client :=
  let supabaseUrl := env !! "SUPABASE_URL" in
  let supabaseKey := env !! "SUPABASE_SERVICE_KEY" in
  if negb (truthy supabaseUrl) || negb (truthy supabaseKey) then
    Throw missing_credentials
  else
    Ok (createClient supabaseUrl supabaseKey).

(** ** Vocabulary of the properties *)

(** The actor of a request, [req.user.userId || req.user.id]. *)
Definition actor (user : jwt_payload) : js_string :=
  js_or (payload_userId user) (payload_id user).

(** The account a route is asked to delete: the actor on [/profile], the
    path parameter on [/:userId]. *)
Definition target (route : delete_route) (user : jwt_payload) : string :=
  match route with
  | Route_profile => js_text (actor user)
  | Route_userId userId => userId
  end.

(** The route lets the request through to the deletion steps. *)
Definition authorized (route : delete_route) (user : jwt_payload) : bool :=
  match route with
  | Route_profile => true
  | Route_userId userId => negb (strict_neq userId (actor user))
  end.

(** Row [r] of table [t] references account [a]. *)
Definition refers_to (t : table) (a : string) (r : row) : bool :=
  match t with
  | subscribers => column_is r "subscriber_id" a || column_is r "creator_id" a
  | users => column_is r "id" a
  | _ => column_is r "user_id" a
  end.

(** Position of a table's delete in the source text of the routes. *)
Definition step_index (t : table) : nat :=
  match t with
  | posts => 0
  | likes => 1
  | comments => 2
  | bookmarks => 3
  | subscribers => 4
  | users => 5
  end.

(** The filter the routes put on table [t] for account [a]. *)
Definition step_filter (a : string) (t : table) : filter :=
  match t with
  | subscribers => or_ [("subscriber_id", a); ("creator_id", a)]
  | users => eq_ "id" a
  | _ => eq_ "user_id" a
  end.

(** The calls on the collaborators a complete run issues for account [a]. *)
Definition deletion_calls (a : string) : list event :=
  [ Db_delete posts (step_filter a posts);
    Db_delete likes (step_filter a likes);
    Db_delete comments (step_filter a comments);
    Db_delete bookmarks (step_filter a bookmarks);
    Db_delete subscribers (step_filter a subscribers);
    Db_delete users (step_filter a users);
    Auth_admin_deleteUser a ].

Definition is_call (ev : event) : bool :=
  match ev with
  | Db_delete _ _ | Auth_admin_deleteUser _ => true
  | Console_log _ | Console_error _ _ => false
  end.

(** The collaborator calls among the effects a run added to the trace. *)
Definition calls_issued (before after : World) : list event :=
  List.filter is_call (drop (length (trace before)) (trace after)).

Definition success_response : response :=
  res_json [("message", "Account successfully deleted")].

Definition failure_response (e : error) : response :=
  res_status_json 500 [("message", "Error deleting account"); ("error", message e)].

(** The scenario of the specification: [u1] owns two posts, three likes and a comment,
    no bookmark, and subscribes to [u2]; [u2] has rows of its own. *)
Definition scenario : World :=
  mkWorld
    (mkStore
       [ {[ "id" := "p1"; "user_id" := "u1" ]}; {[ "id" := "p2"; "user_id" := "u2" ]};
         {[ "id" := "p3"; "user_id" := "u1" ]} ]
       [ {[ "post_id" := "p1"; "user_id" := "u1" ]}; {[ "post_id" := "p2"; "user_id" := "u1" ]};
         {[ "post_id" := "p1"; "user_id" := "u2" ]}; {[ "post_id" := "p3"; "user_id" := "u1" ]} ]
       [ {[ "post_id" := "p2"; "user_id" := "u1" ]}; {[ "post_id" := "p1"; "user_id" := "u2" ]} ]
       [ {[ "post_id" := "p1"; "user_id" := "u2" ]} ]
       [ {[ "subscriber_id" := "u1"; "creator_id" := "u2" ]};
         {[ "subscriber_id" := "u3"; "creator_id" := "u2" ]} ]
       [ {[ "id" := "u1"; "username" := "ann" ]}; {[ "id" := "u2"; "username" := "bob" ]} ])
    ["u1"; "u2"]
    [].

Definition user_u1 : jwt_payload := mkPayload (Some "u1") None.
Definition user_u2 : jwt_payload := mkPayload None (Some "u2").

(** A store that fails the delete on [comments]. *)
Definition comments_fail : faults :=
  mkFaults (fun t => match t with comments => Some (mkError "statement timeout") | _ => None end)
           Auth_ok.

(** An identity service that rejects the credential removal. *)
Definition auth_fails : faults :=
  mkFaults (fun _ => None) (Auth_throws (mkError "User not allowed")).

(** A verifier for the examples: it accepts the token ["t-u1"] as [u1]'s
    and rejects any other. *)
Definition sample_verify (token secret : string) : error + jwt_payload :=
  if String.eqb token "t-u1" then inr user_u1 else inl (mkError "jwt expired").

Definition request_without_credential : request := mkRequest ∅.

Definition request_with_expired_token : request :=
  mkRequest {[ "authorization" := "Bearer t-old" ]}.

(** ** The deletion steps as a recursion over the tables

    The same steps as the route bodies, as one recursion over the list
    of tables; the routes are proved equal to it below, and the
    properties that hold step by step are proved by induction on it. *)

Definition deletion_plan : list (table * string) :=
  [ (posts, "Error deleting posts:");
    (likes, "Error deleting likes:");
    (comments, "Error deleting comments:");
    (bookmarks, "Error deleting bookmarks:");
    (subscribers, "Error deleting subscribers:");
    (users, "Error deleting user:") ].

(** The store after a delete on [t] for account [a] that the store
    carried out. *)
Definition apply_delete (a : string) (t : table) (w : World) : World :=
  mkWorld (with_rows t (delete_where (step_filter a t) (rows_of t (db w))) (db w))
          (auth_users w) (trace w).

Fixpoint run_plan (fl : faults) (a : string) (plan : list (table * string))
  (w : World) : option error * World :=
  match plan with
  | [] => (None, w)
  | (t, label) :: rest =>
      let w1 := emit (Db_delete t (step_filter a t)) w in
      match delete_error fl t with
      | Some e => (Some e, emit (Console_error label e) w1)
      | None => run_plan fl a rest (apply_delete a t w1)
      end
  end.

(** Step 7 with its own try/catch. *)
Definition remove_credential (fl : faults) (a : string) (w : World) : World :=
  let w1 := emit (Auth_admin_deleteUser a) w in
  match auth_delete fl with
  | Auth_ok =>
      mkWorld (db w1) (List.filter (fun u => negb (String.eqb u a)) (auth_users w1))
              (trace w1)
  | Auth_error_result _ => w1
  | Auth_throws e => emit (Console_error "Error deleting auth user:" e) w1
  end.

Definition workflow (fl : faults) (a : string) (w : World) : response * World :=
  match run_plan fl a deletion_plan
          (emit (Console_log ("Deleting user account: " +:+ a)) w) with
  | (Some e, w1) => (failure_response e, emit (Console_error "Delete account error:" e) w1)
  | (None, w1) => (success_response, remove_credential fl a w1)
  end.

(** The first table, in the order of the steps, whose delete the store
    fails. *)
Definition first_failure (fl : faults) : option table :=
  List.find (fun t => bool_decide (is_Some (delete_error fl t)))
    [posts; likes; comments; bookmarks; subscribers; users].

(** How many collaborator calls a run that passes the guard issues. *)
Definition calls_count (fl : faults) : nat :=
  match first_failure fl with
  | Some t => S (step_index t)
  | None => 7
  end.

#[export] Instance table_eq_dec : EqDecision table.
Proof. solve_decision. Defined.

(** A table without a row of [a]. *)
Definition clean (a : string) (t : table) (w : World) : Prop :=
  Forall (fun r => refers_to t a r = false) (rows_of t (db w)).

Definition forbidden_response : response :=
  res_status_json 403 [("message", "You can only delete your own account")].

(** * Properties *)

(** ** Rows and filters *)

Lemma row_matches_step (a : string) (t : table) (r : row) :
  row_matches (step_filter a t) r = refers_to t a r.
Proof. destruct t; simpl; try reflexivity. by rewrite orb_false_r. Qed.

Lemma delete_where_step (a : string) (t : table) (rs : list row) :
  delete_where (step_filter a t) rs = List.filter (fun r => negb (refers_to t a r)) rs.
Proof.
  unfold delete_where. induction rs as [|r rs IH]; simpl; [done|].
  by rewrite row_matches_step, IH.
Qed.

Lemma filter_filter_same {A} (p : A -> bool) (l : list A) :
  List.filter p (List.filter p l) = List.filter p l.
Proof.
  induction l as [|x l IH]; simpl; [done|].
  destruct (p x) eqn:Hx; simpl; [|done]. by rewrite Hx, IH.
Qed.

Lemma filter_all_true {A} (p : A -> bool) (l : list A) :
  Forall (fun x => p x = true) l -> List.filter p l = l.
Proof.
  induction 1 as [|x l Hx _ IH]; simpl; [done|]. by rewrite Hx, IH.
Qed.

Lemma filter_Forall {A} (p : A -> bool) (l : list A) :
  Forall (fun x => p x = true) (List.filter p l).
Proof.
  induction l as [|x l IH]; simpl; [constructor|].
  destruct (p x) eqn:Hx; [by constructor | done].
Qed.

Lemma rows_of_with_rows (t t' : table) (rs : list row) (s : Store) :
  rows_of t (with_rows t' rs s) = if decide (t = t') then rs else rows_of t s.
Proof. by destruct t, t', s. Qed.

Lemma with_rows_same (t : table) (s : Store) : with_rows t (rows_of t s) s = s.
Proof. by destruct t, s. Qed.

(** A row references [a] no longer once its table went through the
    delete, and a delete on any table keeps the rows that do not. *)
Lemma apply_delete_frame (a : string) (t t' : table) (w : World) :
  List.filter (fun r => negb (refers_to t a r)) (rows_of t (db (apply_delete a t' w)))
  = List.filter (fun r => negb (refers_to t a r)) (rows_of t (db w)).
Proof.
  unfold apply_delete; simpl. rewrite rows_of_with_rows.
  destruct (decide (t = t')) as [->|]; [|done].
  by rewrite delete_where_step, filter_filter_same.
Qed.

Lemma clean_filter (a : string) (t : table) (w : World) :
  clean a t w <->
  List.filter (fun r => negb (refers_to t a r)) (rows_of t (db w)) = rows_of t (db w).
Proof.
  unfold clean. split.
  - intros H. apply filter_all_true. eapply Forall_impl; [exact H|].
    simpl. by intros r ->.
  - intros H. rewrite <- H. eapply Forall_impl; [apply filter_Forall|].
    simpl. intros r Hr. by apply negb_true_iff.
Qed.

Lemma apply_delete_clean_here (a : string) (t : table) (w : World) :
  clean a t (apply_delete a t w).
Proof.
  apply clean_filter. unfold apply_delete; simpl.
  rewrite rows_of_with_rows, decide_True by done.
  by rewrite delete_where_step, filter_filter_same.
Qed.

Lemma apply_delete_clean_kept (a : string) (t t' : table) (w : World) :
  clean a t w -> clean a t (apply_delete a t' w).
Proof.
  rewrite !clean_filter. intros H. rewrite apply_delete_frame, H.
  unfold apply_delete; simpl. rewrite rows_of_with_rows.
  destruct (decide (t = t')) as [<-|]; [|done].
  by rewrite delete_where_step.
Qed.

Lemma apply_delete_clean_id (a : string) (t : table) (w : World) :
  clean a t w -> apply_delete a t w = w.
Proof.
  intros H. apply clean_filter in H. unfold apply_delete.
  rewrite delete_where_step, H, with_rows_same. by destruct w.
Qed.

(** ** The recursion over the steps *)

Lemma run_plan_frame (fl : faults) (a : string) (plan : list (table * string))
  (t : table) (w : World) :
  List.filter (fun r => negb (refers_to t a r)) (rows_of t (db (run_plan fl a plan w).2))
  = List.filter (fun r => negb (refers_to t a r)) (rows_of t (db w)).
Proof.
  revert w. induction plan as [|[t' label] rest IH]; intros w; simpl; [done|].
  destruct (delete_error fl t'); simpl; [done|].
  by rewrite IH, apply_delete_frame.
Qed.

Lemma run_plan_auth_users (fl : faults) (a : string) (plan : list (table * string))
  (w : World) :
  auth_users (run_plan fl a plan w).2 = auth_users w.
Proof.
  revert w. induction plan as [|[t' label] rest IH]; intros w; simpl; [done|].
  destruct (delete_error fl t'); simpl; [done|]. by rewrite IH.
Qed.

(** When every step succeeded, each table of the plan is clean. *)
Lemma run_plan_clean (fl : faults) (a : string) (plan : list (table * string))
  (t : table) (w : World) :
  (run_plan fl a plan w).1 = None ->
  t ∈ plan.*1 \/ clean a t w ->
  clean a t (run_plan fl a plan w).2.
Proof.
  revert w. induction plan as [|[t' label] rest IH]; intros w; simpl.
  - intros _ [H|H]; [by apply elem_of_nil in H | done].
  - destruct (delete_error fl t'); simpl; [done|].
    intros Hok Ht. apply IH; [done|].
    destruct Ht as [Ht|Ht].
    + apply elem_of_cons in Ht as [->|Ht]; [|by left].
      right. apply apply_delete_clean_here.
    + right. by apply apply_delete_clean_kept.
Qed.

(** On clean tables a store that reports no error deletes nothing and
    every step succeeds. *)
Lemma run_plan_clean_id (fl : faults) (a : string) (plan : list (table * string))
  (w : World) :
  (forall t, delete_error fl t = None) ->
  (forall t, clean a t w) ->
  (run_plan fl a plan w).1 = None /\ db (run_plan fl a plan w).2 = db w.
Proof.
  intros Hfl. revert w. induction plan as [|[t' label] rest IH]; intros w Hw; simpl; [done|].
  rewrite Hfl. rewrite apply_delete_clean_id by apply Hw.
  apply (IH (emit _ w)). intros t. apply Hw.
Qed.

(** ** The routes run the steps *)

Lemma strict_neq_false (uid : string) (v : js_string) :
  strict_neq uid v = false <-> v = Some uid.
Proof.
  destruct v as [s|]; simpl; [|done].
  rewrite negb_false_iff, String.eqb_eq. split; congruence.
Qed.

Lemma delete_profile_workflow (fl : faults) (user : jwt_payload) (w : World) :
  delete_profile fl user w = workflow fl (js_text (actor user)) w.
Proof.
  unfold delete_profile, workflow, try_route, actor, db_delete, remove_credential,
    auth_admin_deleteUser, try_catch, mbind, M_bind; simpl.
  repeat (match goal with
          | |- context [delete_error fl ?t] => destruct (delete_error fl t)
          end; simpl; try reflexivity).
  destruct (auth_delete fl); reflexivity.
Qed.

Lemma delete_by_userId_workflow (fl : faults) (userId : string) (user : jwt_payload)
  (w : World) :
  actor user = Some userId ->
  delete_by_userId fl userId user w = workflow fl userId w.
Proof.
  intros Hactor. apply strict_neq_false in Hactor. unfold actor in Hactor.
  unfold delete_by_userId, workflow, try_route, db_delete, remove_credential,
    auth_admin_deleteUser, try_catch, mbind, M_bind. rewrite Hactor; simpl.
  repeat (match goal with
          | |- context [delete_error fl ?t] => destruct (delete_error fl t)
          end; simpl; try reflexivity).
  destruct (auth_delete fl); reflexivity.
Qed.

Lemma delete_by_userId_forbidden (fl : faults) (userId : string) (user : jwt_payload)
  (w : World) :
  actor user <> Some userId ->
  delete_by_userId fl userId user w = (forbidden_response, w).
Proof.
  intros Hactor. unfold delete_by_userId, try_route.
  destruct (strict_neq userId (js_or (payload_userId user) (payload_id user))) eqn:Hneq.
  - reflexivity.
  - by apply strict_neq_false in Hneq.
Qed.

Lemma handle_delete_workflow (fl : faults) (route : delete_route) (user : jwt_payload)
  (w : World) :
  authorized route user = true ->
  handle_delete fl route user w = workflow fl (target route user) w.
Proof.
  destruct route as [|uid]; simpl.
  - intros _. apply delete_profile_workflow.
  - rewrite negb_true_iff, strict_neq_false. apply delete_by_userId_workflow.
Qed.

Lemma handle_delete_forbidden (fl : faults) (route : delete_route) (user : jwt_payload)
  (w : World) :
  authorized route user = false ->
  handle_delete fl route user w = (forbidden_response, w).
Proof.
  destruct route as [|uid]; simpl; [done|].
  rewrite negb_false_iff. intros H. apply delete_by_userId_forbidden.
  intros Heq. apply strict_neq_false in Heq. congruence.
Qed.

(** ** What a run of the steps leaves *)

Lemma db_remove_credential (fl : faults) (a : string) (w : World) :
  db (remove_credential fl a w) = db w.
Proof. unfold remove_credential. by destruct (auth_delete fl). Qed.

Lemma workflow_db (fl : faults) (a : string) (w : World) :
  db (workflow fl a w).2
  = db (run_plan fl a deletion_plan
          (emit (Console_log ("Deleting user account: " +:+ a)) w)).2.
Proof.
  unfold workflow.
  destruct (run_plan _ _ _ _) as [[e|] w1]; simpl; [done|].
  apply db_remove_credential.
Qed.

Lemma workflow_200 (fl : faults) (a : string) (w : World) :
  status (workflow fl a w).1 = 200 ->
  (run_plan fl a deletion_plan
     (emit (Console_log ("Deleting user account: " +:+ a)) w)).1 = None.
Proof.
  unfold workflow.
  by destruct (run_plan _ _ _ _) as [[e|] w1].
Qed.

Lemma handle_delete_200 (fl : faults) (route : delete_route) (user : jwt_payload)
  (w : World) :
  status (handle_delete fl route user w).1 = 200 -> authorized route user = true.
Proof.
  destruct (authorized route user) eqn:Hauth; [done|].
  by rewrite handle_delete_forbidden.
Qed.

Lemma workflow_clean (fl : faults) (a : string) (w : World) (t : table) :
  status (workflow fl a w).1 = 200 -> clean a t (workflow fl a w).2.
Proof.
  intros H%workflow_200. unfold clean. rewrite workflow_db.
  apply run_plan_clean; [done|]. left.
  destruct t; simpl; set_solver.
Qed.

Lemma column_is_false (r : row) (c v : string) :
  column_is r c v = false <-> r !! c <> Some v.
Proof. unfold column_is. apply bool_decide_eq_false. Qed.

(** C1.  For every account [A] and every store state, if the deletion
    workflow for [A] answers the 200 confirmation, then the final store
    holds no post, like, comment or bookmark with [user_id = A], no
    subscription with [subscriber_id = A] or [creator_id = A], and no
    account row with [id = A]; on either route, whatever the store and the
    identity service fail. *)
Theorem deletion_leaves_no_reference (fl : faults) (route : delete_route)
  (user : jwt_payload) (w : World) (A : string) :
  target route user = A ->
  status (handle_delete fl route user w).1 = 200 ->
  let w' := (handle_delete fl route user w).2 in
  Forall (fun r => r !! "user_id" <> Some A) (posts_rows (db w')) /\
  Forall (fun r => r !! "user_id" <> Some A) (likes_rows (db w')) /\
  Forall (fun r => r !! "user_id" <> Some A) (comments_rows (db w')) /\
  Forall (fun r => r !! "user_id" <> Some A) (bookmarks_rows (db w')) /\
  Forall (fun r => r !! "subscriber_id" <> Some A /\ r !! "creator_id" <> Some A)
    (subscribers_rows (db w')) /\
  Forall (fun r => r !! "id" <> Some A) (users_rows (db w')).
Proof.
  intros <- H200. pose proof (handle_delete_200 _ _ _ _ H200) as Hauth.
  rewrite handle_delete_workflow in * by done.
  set (a := target route user) in *. simpl.
  pose proof (fun t => workflow_clean fl a w t H200) as Hclean.
  repeat split.
  1-4, 6: match goal with
    | |- Forall _ (?proj _) =>
        let t := match proj with
                 | posts_rows => posts | likes_rows => likes
                 | comments_rows => comments | bookmarks_rows => bookmarks
                 | users_rows => users end in
        eapply Forall_impl; [exact (Hclean t)|];
        simpl; intros r Hr; by apply column_is_false
    end.
  eapply Forall_impl; [exact (Hclean subscribers)|].
  simpl. intros r [H1 H2]%orb_false_iff. split; by apply column_is_false.
Qed.

Lemma deletion_leaves_no_reference_witness :
  status (handle_delete no_faults Route_profile user_u1 scenario).1 = 200 /\
  let w' := (handle_delete no_faults Route_profile user_u1 scenario).2 in
  Forall (fun r : row => r !! "user_id" <> Some "u1") (posts_rows (db w')) /\
  Forall (fun r : row => r !! "user_id" <> Some "u1") (likes_rows (db w')) /\
  Forall (fun r : row => r !! "user_id" <> Some "u1") (comments_rows (db w')) /\
  Forall (fun r : row => r !! "user_id" <> Some "u1") (bookmarks_rows (db w')) /\
  Forall (fun r : row => r !! "subscriber_id" <> Some "u1" /\ r !! "creator_id" <> Some "u1")
    (subscribers_rows (db w')) /\
  Forall (fun r : row => r !! "id" <> Some "u1") (users_rows (db w')).
Proof.
  split; [reflexivity|].
  apply (deletion_leaves_no_reference no_faults Route_profile user_u1 scenario "u1");
    reflexivity.
Defined.

(** C9.  For every target [T] and every store state, a run of either
    route, completed or aborted at any step or refused, leaves in each
    table exactly the rows that do not reference [T]: the rows of a table
    that do not reference [T] are the same before and after, in the same
    order, each unmodified. *)
Theorem deletion_frame (fl : faults) (route : delete_route) (user : jwt_payload)
  (w : World) (t : table) :
  List.filter (fun r => negb (refers_to t (target route user) r))
    (rows_of t (db (handle_delete fl route user w).2))
  = List.filter (fun r => negb (refers_to t (target route user) r))
      (rows_of t (db w)).
Proof.
  destruct (authorized route user) eqn:Hauth.
  - rewrite handle_delete_workflow by done.
    rewrite workflow_db. by rewrite run_plan_frame.
  - by rewrite handle_delete_forbidden.
Qed.

(** C2.  For every target [T] and actor [B] other than [T], the
    [/:userId] route answers 403 and leaves the world as it was: no call on
    the store or the identity service, nothing deleted. *)
Theorem other_account_forbidden (fl : faults) (T : string) (B : js_string)
  (user : jwt_payload) (w : World) :
  actor user = B ->
  B <> Some T ->
  delete_by_userId fl T user w
  = (res_status_json 403 [("message", "You can only delete your own account")], w).
Proof. intros <- HB. by apply delete_by_userId_forbidden. Qed.

Lemma other_account_forbidden_witness :
  delete_by_userId no_faults "u1" user_u2 scenario
  = (res_status_json 403 [("message", "You can only delete your own account")], scenario).
Proof.
  apply (other_account_forbidden no_faults "u1" (Some "u2") user_u2 scenario).
  - reflexivity.
  - discriminate.
Defined.

(** C7.  For every actor and every store state, the [/:userId] route
    invoked with the actor's own identifier and the [/profile] route give
    the same response and the same final world, under the same failures of
    the store. *)
Theorem routes_agree (fl : faults) (T : string) (user : jwt_payload) (w : World) :
  actor user = Some T ->
  delete_by_userId fl T user w = delete_profile fl user w.
Proof.
  unfold actor, delete_by_userId, delete_profile. intros ->. simpl.
  by rewrite String.eqb_refl.
Qed.

Lemma routes_agree_witness :
  delete_by_userId comments_fail "u1" user_u1 scenario
  = delete_profile comments_fail user_u1 scenario.
Proof. apply (routes_agree comments_fail "u1" user_u1 scenario). reflexivity. Defined.

(** ** Order of the calls and failure of a step *)

Lemma first_failure_spec (fl : faults) (t : table) :
  first_failure fl = Some t ->
  is_Some (delete_error fl t) /\
  forall t', step_index t' < step_index t -> delete_error fl t' = None.
Proof.
  unfold first_failure. simpl.
  repeat (case_bool_decide;
          [ intros [= <-]; split; [done|];
            intros t'; destruct t'; simpl; intros Hlt; try lia;
            match goal with
            | Hn : ~ is_Some (delete_error fl ?x) |- delete_error fl ?x = None =>
                by apply eq_None_not_Some
            end
          | ]).
  done.
Qed.

Lemma first_failure_None (fl : faults) :
  first_failure fl = None <-> forall t, delete_error fl t = None.
Proof.
  unfold first_failure. simpl. split.
  - repeat (case_bool_decide as H; [done|apply eq_None_not_Some in H; revert H]).
    intros; by destruct t.
  - intros H. by rewrite !H.
Qed.

Lemma workflow_calls (fl : faults) (a : string) (w : World) :
  calls_issued w (workflow fl a w).2 = take (calls_count fl) (deletion_calls a).
Proof.
  unfold workflow, calls_count, first_failure, calls_issued, remove_credential.
  simpl.
  repeat (match goal with
          | |- context [delete_error fl ?t] => destruct (delete_error fl t)
          end; simpl;
          try (rewrite <- ?app_assoc, drop_app_length; reflexivity)).
  destruct (auth_delete fl); simpl;
    rewrite <- ?app_assoc, drop_app_length; reflexivity.
Qed.

(** C4.  Every run that passes the guard issues its calls on the store
    and the identity service in the order of [deletion_calls]: posts, likes,
    comments, bookmarks (each by [user_id]), subscribers (by
    [subscriber_id] or [creator_id]), users (by [id]), then the credential
    removal.  It issues them whatever the store holds, with no other call
    in between, up to the first delete the store fails; when none fails it
    issues all seven. *)
Theorem deletion_order (fl : faults) (route : delete_route) (user : jwt_payload)
  (w : World) :
  authorized route user = true ->
  calls_issued w (handle_delete fl route user w).2
  = take (calls_count fl) (deletion_calls (target route user)) /\
  ((forall t, delete_error fl t = None) ->
   calls_issued w (handle_delete fl route user w).2
   = deletion_calls (target route user)).
Proof.
  intros Hauth. rewrite handle_delete_workflow by done.
  rewrite workflow_calls. split; [done|].
  intros Hnone%first_failure_None. unfold calls_count. by rewrite Hnone.
Qed.

Lemma deletion_order_witness :
  calls_issued scenario (handle_delete auth_fails (Route_userId "u1") user_u1 scenario).2
  = [ Db_delete posts (eq_ "user_id" "u1");
      Db_delete likes (eq_ "user_id" "u1");
      Db_delete comments (eq_ "user_id" "u1");
      Db_delete bookmarks (eq_ "user_id" "u1");
      Db_delete subscribers (or_ [("subscriber_id", "u1"); ("creator_id", "u1")]);
      Db_delete users (eq_ "id" "u1");
      Auth_admin_deleteUser "u1" ].
Proof.
  apply (deletion_order auth_fails (Route_userId "u1") user_u1 scenario).
  - reflexivity.
  - reflexivity.
Defined.

Lemma workflow_failure (fl : faults) (a : string) (w : World) (t : table) (e : error) :
  first_failure fl = Some t ->
  delete_error fl t = Some e ->
  (workflow fl a w).1 = failure_response e /\
  auth_users (workflow fl a w).2 = auth_users w /\
  forall t',
    rows_of t' (db (workflow fl a w).2)
    = if decide (step_index t' < step_index t)
      then delete_where (step_filter a t') (rows_of t' (db w))
      else rows_of t' (db w).
Proof.
  intros [_ Hearlier]%first_failure_spec He.
  unfold workflow.
  destruct t; simpl;
    repeat (match goal with
            | |- context [delete_error fl ?x] =>
                first [ rewrite He | rewrite (Hearlier x) by (simpl; lia) ]
            end; simpl);
    (split; [reflexivity|]); (split; [reflexivity|]);
    intros t'; destruct t'; simpl; reflexivity.
Qed.

(** C3.  For every target and store state, when the store fails one of
    the six deletes (the first failure being on table [t], with error
    [e]), the run answers 500 with [e]'s message, issues no call after the
    failed one, and leaves the store with the deletes before [t] carried
    out and every table from [t] on, and the credentials, as they were.
    In particular when the delete on comments fails, no post and no like of
    the target is left, and comments, bookmarks, subscriptions and account
    rows are untouched. *)
Theorem failed_step_aborts (fl : faults) (route : delete_route) (user : jwt_payload)
  (w : World) (t : table) (e : error) :
  authorized route user = true ->
  first_failure fl = Some t ->
  delete_error fl t = Some e ->
  let a := target route user in
  let w' := (handle_delete fl route user w).2 in
  (handle_delete fl route user w).1
  = res_status_json 500 [("message", "Error deleting account"); ("error", message e)] /\
  calls_issued w w' = take (S (step_index t)) (deletion_calls a) /\
  (forall t',
     rows_of t' (db w')
     = if decide (step_index t' < step_index t)
       then delete_where (step_filter a t') (rows_of t' (db w))
       else rows_of t' (db w)) /\
  auth_users w' = auth_users w /\
  (t = comments ->
   Forall (fun r => r !! "user_id" <> Some a) (posts_rows (db w')) /\
   Forall (fun r => r !! "user_id" <> Some a) (likes_rows (db w')) /\
   comments_rows (db w') = comments_rows (db w) /\
   bookmarks_rows (db w') = bookmarks_rows (db w) /\
   subscribers_rows (db w') = subscribers_rows (db w) /\
   users_rows (db w') = users_rows (db w)).
Proof.
  intros Hauth Hfirst He a w'. subst w'.
  rewrite handle_delete_workflow by done. fold a.
  destruct (workflow_failure fl a w t e Hfirst He) as (Hresp & Hcred & Hrows).
  split; [exact Hresp|]. split.
  { rewrite workflow_calls. unfold calls_count. by rewrite Hfirst. }
  split; [exact Hrows|]. split; [exact Hcred|].
  intros ->.
  pose proof (Hrows posts) as Hposts. pose proof (Hrows likes) as Hlikes.
  pose proof (Hrows comments) as Hcomments. pose proof (Hrows bookmarks) as Hbookmarks.
  pose proof (Hrows subscribers) as Hsubs. pose proof (Hrows users) as Husers.
  simpl in *. rewrite Hposts, Hlikes.
  repeat split; try done.
  - unfold delete_where; simpl. eapply Forall_impl; [apply filter_Forall|].
    simpl. intros r Hr%negb_true_iff. by apply column_is_false.
  - unfold delete_where; simpl. eapply Forall_impl; [apply filter_Forall|].
    simpl. intros r Hr%negb_true_iff. by apply column_is_false.
Qed.

Lemma failed_step_aborts_witness :
  let w' := (handle_delete comments_fail Route_profile user_u1 scenario).2 in
  (handle_delete comments_fail Route_profile user_u1 scenario).1
  = res_status_json 500
      [("message", "Error deleting account"); ("error", "statement timeout")] /\
  calls_issued scenario w'
  = [ Db_delete posts (eq_ "user_id" "u1");
      Db_delete likes (eq_ "user_id" "u1");
      Db_delete comments (eq_ "user_id" "u1") ] /\
  comments_rows (db w') = comments_rows (db scenario).
Proof.
  pose proof (failed_step_aborts comments_fail Route_profile user_u1 scenario comments
                (mkError "statement timeout") eq_refl eq_refl eq_refl) as H.
  simpl in H. destruct H as (H1 & H2 & _ & _ & H5).
  split; [exact H1|]. split; [exact H2|]. apply (H5 eq_refl).
Defined.

(** ** The credential removal and a second run *)

Lemma workflow_all_succeed (fl : faults) (a : string) (w : World) :
  (forall t, delete_error fl t = None) ->
  workflow fl a w
  = (success_response,
     remove_credential fl a
       (run_plan fl a deletion_plan
          (emit (Console_log ("Deleting user account: " +:+ a)) w)).2)
  /\ auth_users (run_plan fl a deletion_plan
                   (emit (Console_log ("Deleting user account: " +:+ a)) w)).2
     = auth_users w.
Proof.
  intros Hnone. split; [|by rewrite run_plan_auth_users].
  unfold workflow. simpl. by rewrite !Hnone.
Qed.

(** C5.  For every target, when the six deletes succeed the run answers
    status 200 with exactly [{ message: "Account successfully deleted" }],
    whatever the identity service does with the credential removal; when
    that call throws, the error is logged last and swallowed, and when it
    fails either way the credentials stay as they were. *)
Theorem credential_failure_is_success (fl : faults) (route : delete_route)
  (user : jwt_payload) (w : World) :
  authorized route user = true ->
  (forall t, delete_error fl t = None) ->
  let w' := (handle_delete fl route user w).2 in
  (handle_delete fl route user w).1
  = mkResponse 200 [("message", "Account successfully deleted")] /\
  (forall e, auth_delete fl = Auth_throws e ->
     last (trace w') = Some (Console_error "Error deleting auth user:" e)) /\
  (auth_delete fl <> Auth_ok -> auth_users w' = auth_users w).
Proof.
  intros Hauth Hnone w'. subst w'.
  rewrite handle_delete_workflow by done.
  destruct (workflow_all_succeed fl (target route user) w Hnone) as [-> Hcred].
  simpl. split; [done|]. unfold remove_credential. split.
  - intros e ->. simpl. apply last_snoc.
  - destruct (auth_delete fl); [done|..]; intros _; simpl; exact Hcred.
Qed.

Lemma credential_failure_is_success_witness :
  let w' := (handle_delete auth_fails Route_profile user_u1 scenario).2 in
  (handle_delete auth_fails Route_profile user_u1 scenario).1
  = mkResponse 200 [("message", "Account successfully deleted")] /\
  last (trace w') = Some (Console_error "Error deleting auth user:" (mkError "User not allowed")) /\
  auth_users w' = ["u1"; "u2"].
Proof.
  pose proof (credential_failure_is_success auth_fails Route_profile user_u1 scenario
                eq_refl (fun _ => eq_refl)) as H.
  simpl in H. destruct H as (H1 & H2 & H3).
  split; [exact H1|]. split; [exact (H2 _ eq_refl)|].
  apply H3. discriminate.
Defined.

(** A run on a store without a row of the target, when the store reports
    no error: every delete removes nothing and the run succeeds. *)
Lemma workflow_on_clean (fl : faults) (a : string) (w : World) :
  (forall t, delete_error fl t = None) ->
  (forall t, clean a t w) ->
  (workflow fl a w).1 = success_response /\ db (workflow fl a w).2 = db w.
Proof.
  intros Hnone Hclean.
  destruct (workflow_all_succeed fl a w Hnone) as [-> _]. cbn [fst snd].
  split; [done|]. rewrite db_remove_credential.
  destruct (run_plan_clean_id fl a deletion_plan
              (emit (Console_log ("Deleting user account: " +:+ a)) w) Hnone) as [_ H].
  - intros t. apply Hclean.
  - exact H.
Qed.

(** C6, as the code has it.  After a run that answered 200, a second run
    for the same account on a store that reports no error issues all seven
    calls again, each delete, the one on the users table included, removing
    nothing without error, and answers the same 200 confirmation: the
    missing account row does not make the run fail. *)
Theorem second_deletion_succeeds (fl1 fl2 : faults) (route : delete_route)
  (user : jwt_payload) (w : World) :
  let first := handle_delete fl1 route user w in
  let second := handle_delete fl2 route user first.2 in
  status first.1 = 200 ->
  (forall t, delete_error fl2 t = None) ->
  second.1 = mkResponse 200 [("message", "Account successfully deleted")] /\
  db second.2 = db first.2 /\
  calls_issued first.2 second.2 = deletion_calls (target route user).
Proof.
  intros first second H200 Hnone. subst first second.
  pose proof (handle_delete_200 _ _ _ _ H200) as Hauth.
  rewrite !(handle_delete_workflow _ route user) in * by done.
  set (a := target route user) in *.
  pose proof (fun t => workflow_clean fl1 a w t H200) as Hclean.
  destruct (workflow_on_clean fl2 a _ Hnone Hclean) as [Hresp Hdb].
  split; [exact Hresp|]. split; [exact Hdb|].
  rewrite workflow_calls. apply first_failure_None in Hnone.
  unfold calls_count. by rewrite Hnone.
Qed.

Lemma second_deletion_succeeds_witness :
  let first := handle_delete no_faults (Route_userId "u1") user_u1 scenario in
  let second := handle_delete no_faults (Route_userId "u1") user_u1 first.2 in
  second.1 = mkResponse 200 [("message", "Account successfully deleted")] /\
  db second.2 = db first.2.
Proof.
  pose proof (second_deletion_succeeds no_faults no_faults (Route_userId "u1") user_u1
                scenario eq_refl (fun _ => eq_refl)) as H.
  simpl in H. destruct H as (H1 & H2 & _). split; [exact H1 | exact H2].
Defined.

(** C6 as stated does not hold: in the scenario of the specification the
    first deletion of [u1] answers 200 and removes the account row, and the
    second run, on a store that reports no error, answers 200 again. *)
Lemma second_deletion_is_not_a_failure :
  let first := handle_delete no_faults Route_profile user_u1 scenario in
  let second := handle_delete no_faults Route_profile user_u1 first.2 in
  status first.1 = 200 /\
  users_rows (db first.2) = [ {[ "id" := "u2"; "username" := "bob" ]} ] /\
  status second.1 = 200 /\
  second.1 = mkResponse 200 [("message", "Account successfully deleted")] /\
  status second.1 <> 500.
Proof. vm_compute. repeat split; done. Qed.

(** ** The middleware *)

Example split_bearer : split_on " "%char "Bearer abc.def" = ["Bearer"; "abc.def"].
Proof. reflexivity. Qed.

Example split_scheme_only : split_on " "%char "Bearer" = ["Bearer"].
Proof. reflexivity. Qed.

Example bearer_token_of_scheme_only :
  bearer_token (mkRequest {[ "authorization" := "Bearer" ]}) = None.
Proof. reflexivity. Qed.

Lemma bearer_token_no_header (req : request) :
  headers req !! "authorization" = None -> bearer_token req = None.
Proof. unfold bearer_token. by intros ->. Qed.

(** C8.  For every request to either deletion route: when it carries no
    bearer token (no [authorization] header, or none with a token after the
    scheme) the answer is 401, and when [jwt.verify] rejects its token
    (malformed, expired) the answer is 403; in both cases the route body
    does not run and the world is as it was, with no call issued. *)
Theorem unauthenticated_request_rejected
  (jwt_verify : string -> string -> error + jwt_payload) (env : gmap string string)
  (fl : faults) (route : delete_route) (req : request) (w : World) :
  (headers req !! "authorization" = None \/ truthy (bearer_token req) = false ->
   serve_delete jwt_verify env fl route req w
   = (res_status_json 401 [("message", "Access denied")], w)) /\
  (forall token err,
     bearer_token req = Some token -> token <> "" ->
     jwt_verify token (js_or_default (env !! "JWT_SECRET") "your-secret-key") = inl err ->
     serve_delete jwt_verify env fl route req w
     = (res_status_json 403 [("message", "Invalid token")], w)).
Proof.
  unfold serve_delete, authenticateToken. split.
  - intros [Hnone | Hfalsy].
    + by rewrite (bearer_token_no_header req Hnone).
    + by rewrite Hfalsy.
  - intros token err -> Hne Hverify. simpl.
    destruct (String.eqb token "") eqn:Heq; [by apply String.eqb_eq in Heq|].
    simpl. by rewrite Hverify.
Qed.

Lemma unauthenticated_request_rejected_witness :
  serve_delete sample_verify ∅ no_faults Route_profile request_without_credential scenario
  = (res_status_json 401 [("message", "Access denied")], scenario) /\
  serve_delete sample_verify ∅ no_faults (Route_userId "u1") request_with_expired_token scenario
  = (res_status_json 403 [("message", "Invalid token")], scenario).
Proof.
  split.
  - apply (unauthenticated_request_rejected sample_verify ∅ no_faults Route_profile
             request_without_credential scenario).
    left. reflexivity.
  - apply (unauthenticated_request_rejected sample_verify ∅ no_faults (Route_userId "u1")
             request_with_expired_token scenario) with (token := "t-old")
            (err := mkError "jwt expired").
    + reflexivity.
    + discriminate.
    + reflexivity.
Defined.

(** ** The shared client module *)

Lemma truthy_Some (v : js_string) :
  truthy v = true -> exists s, v = Some s /\ s <> "".
Proof.
  destruct v as [s|]; simpl; [|done].
  intros H%negb_true_iff. exists s. split; [done|].
  intros ->. discriminate.
Qed.

(** C10.  Loading the shared client module throws when [SUPABASE_URL] or
    [SUPABASE_SERVICE_KEY] is absent from the environment, and a client it
    exports was constructed from both values, each present. *)
Theorem supabaseClient_fails_fast (env : gmap string string) :
  (env !! "SUPABASE_URL" = None \/ env !! "SUPABASE_SERVICE_KEY" = None ->
   supabaseClient env = Throw missing_credentials) /\
  (forall supabase, supabaseClient env = Ok supabase ->
   exists url key,
     env !! "SUPABASE_URL" = Some url /\ env !! "SUPABASE_SERVICE_KEY" = Some key /\
     supabase = createClient (Some url) (Some key)).
Proof.
  unfold supabaseClient. split.
  - intros [-> | ->]; simpl; [done|]. by rewrite orb_true_r.
  - intros supabase.
    destruct (truthy (env !! "SUPABASE_URL")) eqn:Hurl; simpl; [|done].
    destruct (truthy (env !! "SUPABASE_SERVICE_KEY")) eqn:Hkey; simpl; [|done].
    apply truthy_Some in Hurl as (url & Hu & _).
    apply truthy_Some in Hkey as (key & Hk & _).
    intros [= <-]. exists url, key. by rewrite Hu, Hk.
Qed.

Lemma supabaseClient_fails_fast_witness :
  supabaseClient {[ "SUPABASE_URL" := "https://db.example" ]} = Throw missing_credentials /\
  exists url key,
    supabaseClient {[ "SUPABASE_URL" := "https://db.example"; "SUPABASE_SERVICE_KEY" := "k" ]}
    = Ok (createClient (Some url) (Some key)).
Proof.
  split.
  - apply (supabaseClient_fails_fast {[ "SUPABASE_URL" := "https://db.example" ]}).
    right. vm_compute. reflexivity.
  - assert (supabaseClient
              {[ "SUPABASE_URL" := "https://db.example"; "SUPABASE_SERVICE_KEY" := "k" ]}
            = Ok (createClient (Some "https://db.example") (Some "k"))) as Hload
      by (vm_compute; reflexivity).
    destruct (proj2 (supabaseClient_fails_fast _) _ Hload) as (url & key & _ & _ & H).
    exists url, key. rewrite Hload. by rewrite H.
Defined.
